(** * The voting page of tfhe-playground ([frontend/app/page.tsx])

    The React component [Home] is embedded as a state machine: the five
    [useState] cells form the record [State], every handler of the component is
    a computation in a small monad that threads the pending React state, a
    trace of the observable calls (notifications, the Zupass popup, the key
    load, [encrypt], [fetch]) and JavaScript exceptions, and the buttons and
    inputs of the JSX are the events of [step], guarded by their [disabled]
    attributes.

    Conventions of the embedding:
    - a handler reads the state of the render it was created in (its closure)
      and its [setX] calls update the pending state;
    - [getProof] waits for the user at [await zuAuthPopup]: the click, where
      the [disabled] guard is read, and the return of the popup, where [setPcd]
      runs, are two events, and other events can come between them;
    - the other awaits (library computations, the key load, requests whose
      response is only logged) end within the step of their handler;
    - [console.log] is not recorded in the trace;
    - a JavaScript [number] is an IEEE 754 binary64 value, a [bigint] is a [Z],
      a string is the list of the bytes of its UTF-8 encoding;
    - the request body is kept as the JSON value handed to [JSON.stringify]. *)

From Stdlib Require Import ZArith Ascii String List Bool Lia.
From Stdlib Require Import Floats.SpecFloat.
From stdpp Require Import base option list strings gmap.

Local Open Scope string_scope.
Local Open Scope Z_scope.

(** ** JavaScript values used by the page *)

Module JS.

(** Exceptions a handler can end with. [Rejected] is a rejected promise or a
    throw of a library call. *)
Inductive Exn : Type :=
  | RangeError
  | TypeError
  | SyntaxError
  | Rejected (reason : string).

(** IEEE 754 binary64. *)
Definition number : Type := spec_float.

Definition prec : Z := 53.
Definition emax : Z := 1024.

Definition NaN : number := S754_nan.

(** The global [isNaN] on a number. *)
Definition isNaN (n : number) : bool :=
  match n with
  | S754_nan => true
  | _ => false
  end.

(** [BigInt(n)] for a number [n] (NumberToBigInt): a [RangeError] unless [n]
    is an integral number, and then its mathematical value. *)
Definition BigInt (n : number) : Exn + Z :=
  match n with
  | S754_zero _ => inr 0
  | S754_finite s m e =>
      if 0 <=? e then inr (cond_Zopp s (Z.pos m * 2 ^ e))
      else if Z.pos m mod 2 ^ (- e) =? 0
           then inr (cond_Zopp s (Z.pos m / 2 ^ (- e)))
           else inl RangeError
  | S754_infinity _ | S754_nan => inl RangeError
  end.

(** *** [Number(text)] on a string (StringToNumber) *)

(** White space and line terminators of one byte: TAB, LF, VT, FF, CR, SP. *)
Definition is_white (c : ascii) : bool :=
  let n := N_of_ascii c in
  ((9 <=? n)%N && (n <=? 13)%N) || (n =? 32)%N.

(** Those of two bytes: U+00A0. *)
Definition is_white2 (c1 c2 : ascii) : bool :=
  ((N_of_ascii c1 =? 194) && (N_of_ascii c2 =? 160))%N.

(** Those of three bytes: U+1680, U+2000 to U+200A, U+2028, U+2029, U+202F,
    U+205F, U+3000 and U+FEFF. *)
Definition is_white3 (c1 c2 c3 : ascii) : bool :=
  let b1 := N_of_ascii c1 in
  let b2 := N_of_ascii c2 in
  let b3 := N_of_ascii c3 in
  (((b1 =? 225) && (b2 =? 154) && (b3 =? 128))
   || ((b1 =? 226) && (b2 =? 128)
       && (((128 <=? b3) && (b3 <=? 138)) || (b3 =? 168) || (b3 =? 169)
           || (b3 =? 175)))
   || ((b1 =? 226) && (b2 =? 129) && (b3 =? 159))
   || ((b1 =? 227) && (b2 =? 128) && (b3 =? 128))
   || ((b1 =? 239) && (b2 =? 187) && (b3 =? 191)))%N.

(** Drop the white space at the head of the text. *)
Fixpoint skip_white (l : list ascii) : list ascii :=
  match l with
  | [] => []
  | c1 :: l1 =>
      if is_white c1 then skip_white l1
      else match l1 with
           | [] => l
           | c2 :: l2 =>
               if is_white2 c1 c2 then skip_white l2
               else match l2 with
                    | [] => l
                    | c3 :: l3 => if is_white3 c1 c2 c3 then skip_white l3 else l
                    end
           end
  end.

(** The same on the reversed text, whose bytes come last first. *)
Fixpoint skip_white_rev (l : list ascii) : list ascii :=
  match l with
  | [] => []
  | c1 :: l1 =>
      if is_white c1 then skip_white_rev l1
      else match l1 with
           | [] => l
           | c2 :: l2 =>
               if is_white2 c2 c1 then skip_white_rev l2
               else match l2 with
                    | [] => l
                    | c3 :: l3 =>
                        if is_white3 c3 c2 c1 then skip_white_rev l3 else l
                    end
           end
  end.

Definition trim (l : list ascii) : list ascii :=
  rev (skip_white_rev (rev (skip_white l))).

(** Value of a digit in a radix up to 16, [None] when [c] is no such digit. *)
Definition digit_of (radix : Z) (c : ascii) : option Z :=
  let n := Z.of_N (N_of_ascii c) in
  let v :=
    if (48 <=? n) && (n <=? 57) then Some (n - 48)
    else if (97 <=? n) && (n <=? 102) then Some (n - 87)
    else if (65 <=? n) && (n <=? 70) then Some (n - 55)
    else None in
  match v with
  | Some d => if d <? radix then Some d else None
  | None => None
  end.

(** The longest prefix of digits, as their values, and what follows it. *)
Fixpoint take_digits (radix : Z) (l : list ascii) : list Z * list ascii :=
  match l with
  | [] => ([], [])
  | c :: l' =>
      match digit_of radix c with
      | Some d => let '(ds, rest) := take_digits radix l' in (d :: ds, rest)
      | None => ([], l)
      end
  end.

Definition digits_value (radix : Z) (ds : list Z) : Z :=
  fold_left (fun acc d => acc * radix + d) ds 0.

(** The Number value for the mathematical value [m * 10 ^ k] with [0 <= m]:
    round to nearest, ties to even; a zero takes the sign of the literal. *)
Definition round_decimal (neg : bool) (m k : Z) : number :=
  if m =? 0 then S754_zero neg
  else if 0 <=? k then
    match m * 10 ^ k with
    | Z.pos p => binary_round prec emax neg p 0
    | _ => S754_zero neg
    end
  else
    let '(q, e, l) := SFdiv_core_binary prec emax m 0 (10 ^ (- k)) 0 in
    binary_round_aux prec emax neg q e l.

Definition is_exponent_indicator (c : ascii) : bool :=
  (N_of_ascii c =? 101)%N || (N_of_ascii c =? 69)%N.

(** ExponentPart, optional: the exponent when [l] is empty or a well-formed
    exponent part. *)
Definition exponent_part (l : list ascii) : option Z :=
  match l with
  | [] => Some 0
  | c :: l' =>
      if is_exponent_indicator c then
        let '(neg, l'') :=
          match l' with
          | "+"%char :: r => (false, r)
          | "-"%char :: r => (true, r)
          | _ => (false, l')
          end in
        match take_digits 10 l'' with
        | ((_ :: _) as ds, []) => Some (cond_Zopp neg (digits_value 10 ds))
        | _ => None
        end
      else None
  end.

(** StrUnsignedDecimalLiteral. *)
Definition unsigned_decimal (neg : bool) (l : list ascii) : number :=
  if decide (l = list_ascii_of_string "Infinity") then S754_infinity neg
  else
    let '(ip, r1) := take_digits 10 l in
    let '(fp, r2, ok) :=
      match r1 with
      | "."%char :: r =>
          let '(fp, r') := take_digits 10 r in
          (fp, r', negb (bool_decide (ip = []) && bool_decide (fp = [])))
      | _ => ([], r1, negb (bool_decide (ip = [])))
      end in
    if ok then
      match exponent_part r2 with
      | Some ex =>
          round_decimal neg (digits_value 10 (ip ++ fp))
                        (ex - Z.of_nat (length fp))
      | None => NaN
      end
    else NaN.

(** NonDecimalIntegerLiteral: [0x], [0o], [0b] and their capitals. *)
Definition non_decimal (l : list ascii) : option number :=
  match l with
  | "0"%char :: p :: ds =>
      let radix :=
        match p with
        | "x"%char | "X"%char => Some 16
        | "o"%char | "O"%char => Some 8
        | "b"%char | "B"%char => Some 2
        | _ => None
        end in
      match radix with
      | Some r =>
          match take_digits r ds with
          | ((_ :: _) as vs, []) => Some (round_decimal false (digits_value r vs) 0)
          | _ => Some NaN
          end
      | None => None
      end
  | _ => None
  end.

Definition Number (text : string) : number :=
  match trim (list_ascii_of_string text) with
  | [] => S754_zero false
  | "+"%char :: l => unsigned_decimal false l
  | "-"%char :: l => unsigned_decimal true l
  | l => match non_decimal l with
         | Some n => n
         | None => unsigned_decimal false l
         end
  end.

(** Truthiness of a value of type [string | undefined]. *)
Definition truthy (v : option string) : bool :=
  match v with
  | Some s => negb (bool_decide (s = ""))
  | None => false
  end.

(** JSON values, as built for and read from request and response bodies. *)
#[warnings="-register-all"]
Inductive json : Type :=
  | JNull
  | JBool (b : bool)
  | JNum (n : Z)
  | JStr (s : string)
  | JArr (items : list json)
  | JObj (fields : list (string * json)).

(** Property access [o.key] on a parsed object. *)
Definition field (key : string) (o : json) : option json :=
  match o with
  | JObj fields => snd <$> List.find (fun kv => bool_decide (fst kv = key)) fields
  | _ => None
  end.

End JS.

Import JS.

(** ** What the page imports *)

(** Modelled from the spec: the deserialized eligibility credential, whose type
    is declared in the PCD library and not in this repository. It carries the
    issuer's key ([signer]), the disclosed attributes and the watermark; the
    page reads [claim.signer] only. First the disclosed attributes. *)
Record PartialTicket : Type := mkPartialTicket {
  eventId : option string;
  productId : option string;
  attendeeEmail : option string
}.

(** Modelled from the spec: the claim of the credential. *)
Record Claim : Type := mkClaim {
  partialTicket : PartialTicket;
  watermark : string;
  signer : string * string
}.

(** Modelled from the spec: the credential, a claim and the proof of it. *)
Record ZKEdDSAEventTicketPCD : Type := mkPCD {
  claim : Claim;
  proof : string
}.

(** Modelled from the spec: an entry of the election configuration
    [ETHBERLIN_ZUAUTH_CONFIG] (declared in [utils/zupassConstants], which is
    not in this repository): an eligible event and product and the issuer's
    key. *)
Record TicketType : Type := mkTicketType {
  cfg_eventId : string;
  cfg_productId : string;
  cfg_publicKey : string * string
}.

(** The disclosed event and product of a credential are those of an entry of
    the configuration. *)
Definition eligible (config : list TicketType) (d : ZKEdDSAEventTicketPCD) : bool :=
  existsb (fun t =>
             bool_decide (eventId (partialTicket (claim d)) = Some (cfg_eventId t))
             && bool_decide (productId (partialTicket (claim d)) = Some (cfg_productId t)))
          config.

(** The library functions and constants the page uses; none of them is
    defined in [page.tsx]. *)
Class Imports : Type := {
  (** [TfheCompactPublicKey] and the ciphertext type of [tfhe] *)
  PublicKey : Type;
  Ciphertext : Type;
  ETHBERLIN_ZUAUTH_CONFIG : list TicketType;
  (** [JSON.parse(pcdStr).pcd], at the type [string | undefined] the state
      cell [pcd] is declared with *)
  parse_pcd : string -> Exn + option string;
  (** [ZKEdDSAEventTicketPCDPackage.deserialize] and [.verify] *)
  deserialize : string -> Exn + ZKEdDSAEventTicketPCD;
  verify : ZKEdDSAEventTicketPCD -> bool;
  isETHBerlinPublicKey : string * string -> bool;
  (** [encrypt] of [utils/tfhe] and the ciphertext's [serialize()] *)
  encrypt : Z -> PublicKey -> Exn + Ciphertext;
  serialize : Ciphertext -> list Byte.byte
}.

Definition BASE_URL : string := "http://localhost:8000".
Definition PUBLIC_KEY_PATH : string := BASE_URL +:+ "/public-key".
Definition VOTE_PATH : string := BASE_URL +:+ "/vote".

Record FieldsToReveal : Type := mkFieldsToReveal {
  revealAttendeeEmail : bool;
  revealEventId : bool;
  revealProductId : bool
}.

Definition fieldsToReveal : FieldsToReveal :=
  {| revealAttendeeEmail := true; revealEventId := true; revealProductId := true |}.

(** The three inputs the page renders, in the order of the JSX. *)
Definition projects : list string := ["project1"; "project2"; "project3"].

(** The result of [zuAuthPopup]: a PCD, or any other result type. *)
Inductive PopupResult : Type :=
  | PcdResult (pcdStr : string)
  | OtherResult (type : string).

Definition Exn_toString (e : Exn) : string :=
  match e with
  | RangeError => "RangeError"
  | TypeError => "TypeError"
  | SyntaxError => "SyntaxError"
  | Rejected reason => reason
  end.

(** ** The component *)

Section Home.
Context `{Imports}.

(** The [useState] cells of [Home]. *)
Record State : Type := mkState {
  verifiedFrontend : bool;
  verifiedBackend : bool;
  pcd : option string;
  publicKey : option PublicKey;
  inputValues : gmap string number
}.

Definition initialState : State :=
  {| verifiedFrontend := false;
     verifiedBackend := false;
     pcd := None;
     publicKey := None;
     inputValues := <["project1" := S754_zero false]>
                      (<["project2" := S754_zero false]>
                         (<["project3" := S754_zero false]> ∅)) |}.

(** Calls a handler makes that the user, a library or the network observes. *)
Inductive Effect : Type :=
  | notification_error (msg : string)
  | notification_success (title : string) (body : option json)
  | zuAuthPopup_call (reveal : FieldsToReveal) (watermark : string)
                     (config : list TicketType)
  | initializeTfhe_call
  | loadPublicKey_call (path : string)
  | encrypt_call (vote : Z) (key : PublicKey)
  | fetch_call (url method : string) (headers : list (string * string))
               (body : json).

(** The outcome of running a handler: how it ended, the pending state and
    the calls it made, oldest first. *)
Record Run (A : Type) : Type := mkRun {
  result : Exn + A;
  store : State;
  trace : list Effect
}.
Arguments mkRun {A} _ _ _.
Arguments result {A} _.
Arguments store {A} _.
Arguments trace {A} _.

Definition M (A : Type) : Type := State -> Run A.

#[export] Instance M_ret : MRet M := fun A x σ => mkRun (inr x) σ [].

#[export] Instance M_bind : MBind M := fun A B f m σ =>
  let r := m σ in
  match result r with
  | inr a => let r' := f a (store r) in
             mkRun (result r') (store r') (trace r ++ trace r')
  | inl e => mkRun (inl e) (store r) (trace r)
  end.

Definition throw {A} (e : Exn) : M A := fun σ => mkRun (inl e) σ [].

Definition emit (c : Effect) : M unit := fun σ => mkRun (inr tt) σ [c].

(** [await] of a call whose outcome the environment decides. *)
Definition await {A} (outcome : Exn + A) : M A :=
  match outcome with
  | inr a => mret a
  | inl e => throw e
  end.

Definition setVerifiedFrontend (b : bool) : M unit := fun σ =>
  mkRun (inr tt)
        (mkState b (verifiedBackend σ) (pcd σ) (publicKey σ) (inputValues σ)) [].

Definition setVerifiedBackend (b : bool) : M unit := fun σ =>
  mkRun (inr tt)
        (mkState (verifiedFrontend σ) b (pcd σ) (publicKey σ) (inputValues σ)) [].

Definition setPcd (p : option string) : M unit := fun σ =>
  mkRun (inr tt)
        (mkState (verifiedFrontend σ) (verifiedBackend σ) p (publicKey σ)
                 (inputValues σ)) [].

Definition setPublicKey (k : option PublicKey) : M unit := fun σ =>
  mkRun (inr tt)
        (mkState (verifiedFrontend σ) (verifiedBackend σ) (pcd σ) k
                 (inputValues σ)) [].

Definition setInputValues (v : gmap string number) : M unit := fun σ =>
  mkRun (inr tt)
        (mkState (verifiedFrontend σ) (verifiedBackend σ) (pcd σ) (publicKey σ) v) [].

Definition json_headers : list (string * string) :=
  [("Content-Type", "application/json")].

(** [{ key: v }] under [JSON.stringify]: an undefined value drops the key. *)
Definition optional_field (key : string) (v : option string) : list (string * json) :=
  match v with
  | Some s => [(key, JStr s)]
  | None => []
  end.

(** [Array.from(c.serialize())]. *)
Definition Array_from (bytes : list Byte.byte) : json :=
  JArr (map (fun b => JNum (Z.of_N (Byte.to_N b))) bytes).

(** [BigInt(inputValues.projectN)]; a missing property is [undefined], which
    [BigInt] rejects with a [TypeError]. *)
Definition BigInt_property (v : option number) : Exn + Z :=
  match v with
  | Some n => BigInt n
  | None => inl TypeError
  end.

(** A call of the imported [encrypt], recorded in the trace. *)
Definition call_encrypt (vote : Z) (pk : PublicKey) : M Ciphertext :=
  _ ← emit (encrypt_call vote pk);
  await (encrypt vote pk).

(** *** The handlers, in the order of the source *)

Definition handleInputChange (s : State) (target_value : string) (project : string)
  : M unit :=
  let value := Number target_value in
  if negb (isNaN value)
  then setInputValues (<[project := value]> (inputValues s))
  else mret tt.

(** The [useEffect] that loads the key; [init] and [key] are the outcomes of
    [initializeTfhe()] and [loadPublicKey(PUBLIC_KEY_PATH)]. *)
Definition loadKeyEffect (init : Exn + unit) (key : Exn + option PublicKey)
  : M unit :=
  _ ← emit initializeTfhe_call;
  _ ← await init;
  _ ← emit (loadPublicKey_call PUBLIC_KEY_PATH);
  k ← await key;
  setPublicKey k.

(** [reply] is the outcome of the [fetch]; the response is only logged. *)
Definition handleClick (s : State) (votes : list Z) (reply : Exn + unit) : M unit :=
  match publicKey s with
  | Some pk =>
      votesEncrypted ← mapM (fun vote => call_encrypt vote pk) votes;
      let votesSerialized := map (fun vote => Array_from (serialize vote)) votesEncrypted in
      let body := JObj (("votes", JArr votesSerialized) :: optional_field "pcd" (pcd s)) in
      _ ← emit (fetch_call VOTE_PATH "POST" json_headers body);
      await reply
  | None => mret tt
  end.

(** [getProof] up to its [await]: the popup is opened. *)
Definition getProof_opens : M unit :=
  emit (zuAuthPopup_call fieldsToReveal "123" ETHBERLIN_ZUAUTH_CONFIG).

(** [getProof] from its [await] on; [popup] is the outcome of the popup. *)
Definition getProof_resumes (popup : Exn + PopupResult) : M unit :=
  result ← await popup;
  match result with
  | PcdResult pcdStr => p ← await (parse_pcd pcdStr); setPcd p
  | OtherResult _ => emit (notification_error "Failed to parse PCD")
  end.

Definition getProof (s : State) (popup : Exn + PopupResult) : M unit :=
  _ ← getProof_opens;
  getProof_resumes popup.

Definition verifyProofFrontend (s : State) : M unit :=
  match pcd s with
  | Some p =>
      if bool_decide (p = "") then emit (notification_error "No PCD found!")
      else
        deserializedPCD ← await (deserialize p);
        if negb (verify deserializedPCD)
        then emit (notification_error "[ERROR Frontend] ZK ticket PCD is not valid")
        else if negb (isETHBerlinPublicKey (signer (claim deserializedPCD)))
        then emit (notification_error "[ERROR Frontend] PCD is not signed by ETHBerlin")
        else
          _ ← setVerifiedFrontend true;
          emit (notification_success
                  "Frontend Verified!"
                  (Some (JStr "The proof has been verified by the frontend.")))
  | None => emit (notification_error "No PCD found!")
  end.

(** [response] is the outcome of the [fetch] to [/api/verify]: a rejection,
    or a response together with the outcome of its [json()]. *)
Definition sendPCDToServer (s : State) (response : Exn + (Exn + json)) : M unit :=
  _ ← emit (fetch_call "/api/verify" "POST" json_headers
                       (JObj (optional_field "pcd" (pcd s))));
  match response with
  | inl e => emit (notification_error ("Error: " +:+ Exn_toString e))
  | inr body =>
      data ← await body;
      _ ← setVerifiedBackend true;
      emit (notification_success "Backend Verified!" (field "message" data))
  end.

(** The [onClick] of the Vote button. *)
Definition onVoteClick (s : State) (reply : Exn + unit) : M unit :=
  v1 ← await (BigInt_property (inputValues s !! "project1"));
  v2 ← await (BigInt_property (inputValues s !! "project2"));
  v3 ← await (BigInt_property (inputValues s !! "project3"));
  handleClick s [v1; v2; v3] reply.

(** *** The rendered page as a state machine *)

(** What the user and the environment can do with the rendered page. The
    page renders no control for [sendPCDToServer]. [Mount] is the key-loading
    effect, delivered when its two awaits have ended; [PopupReturns] is the
    return of a popup that a click on Prove opened. *)
Inductive Event : Type :=
  | Mount (init : Exn + unit) (key : Exn + option PublicKey)
  | ClickProve
  | PopupReturns (popup : Exn + PopupResult)
  | ClickVerify
  | Change (project : string) (target_value : string)
  | ClickVote (reply : Exn + unit)
  | ClickReset.

(** The [disabled] attributes of the three guarded buttons. *)
Definition proveDisabled (s : State) : bool := truthy (pcd s).
Definition verifyDisabled (s : State) : bool :=
  negb (truthy (pcd s)) || verifiedFrontend s.
Definition voteDisabled (s : State) : bool :=
  negb (verifiedFrontend s) || verifiedBackend s.

Definition handler (s : State) (ev : Event) : M unit :=
  match ev with
  | Mount init key => loadKeyEffect init key
  | ClickProve => if proveDisabled s then mret tt else getProof_opens
  | PopupReturns popup => getProof_resumes popup
  | ClickVerify => if verifyDisabled s then mret tt else verifyProofFrontend s
  | Change project text =>
      if bool_decide (project ∈ projects)
      then handleInputChange s text project
      else mret tt
  | ClickVote reply => if voteDisabled s then mret tt else onVoteClick s reply
  | ClickReset => setVerifiedFrontend false
  end.

(** One event: the handler runs on the current state. *)
Definition step (s : State) (ev : Event) : Run unit := handler s ev s.

Definition run (s : State) (evs : list Event) : State :=
  fold_left (fun σ ev => store (step σ ev)) evs s.

(** The events that can occur in this order on a page in state [s] with
    [pending] popups open: a popup returns only if one is open, and an
    enabled click on Prove opens one more. *)
Fixpoint feasible (s : State) (pending : nat) (evs : list Event) : bool :=
  match evs with
  | [] => true
  | ev :: evs' =>
      let s' := store (step s ev) in
      match ev with
      | ClickProve =>
          feasible s' (if proveDisabled s then pending else S pending) evs'
      | PopupReturns _ =>
          match pending with
          | O => false
          | S n => feasible s' n evs'
          end
      | _ => feasible s' pending evs'
      end
  end.

(** *** Notions used to state the properties *)

(** Running a handler on the state it was rendered with. *)
Definition call {A} (h : State -> M A) (s : State) : Run A := h s s.

(** The three conversions of the Vote button, in the order they are made. *)
Definition votesOf (s : State) : Exn + list Z :=
  match BigInt_property (inputValues s !! "project1") with
  | inl e => inl e
  | inr v1 =>
      match BigInt_property (inputValues s !! "project2") with
      | inl e => inl e
      | inr v2 =>
          match BigInt_property (inputValues s !! "project3") with
          | inl e => inl e
          | inr v3 => inr [v1; v2; v3]
          end
      end
  end.

(** The outcome and the calls of [votes.map(vote => encrypt(vote, pk))]: the
    ciphertexts in the order of the votes, or the first failure, and one call
    per vote up to that failure. *)
Fixpoint encryptAll (pk : PublicKey) (votes : list Z) : Exn + list Ciphertext :=
  match votes with
  | [] => inr []
  | v :: vs =>
      match encrypt v pk with
      | inl e => inl e
      | inr c => match encryptAll pk vs with
                 | inl e => inl e
                 | inr cs => inr (c :: cs)
                 end
      end
  end.

Fixpoint encryptCalls (pk : PublicKey) (votes : list Z) : list Effect :=
  match votes with
  | [] => []
  | v :: vs =>
      encrypt_call v pk ::
        match encrypt v pk with
        | inl _ => []
        | inr _ => encryptCalls pk vs
        end
  end.

Definition voteBody (cs : list Ciphertext) (p : option string) : json :=
  JObj (("votes", JArr (map (fun c => Array_from (serialize c)) cs))
          :: optional_field "pcd" p).

(** The frontend check as a predicate on the stored credential. *)
Definition frontendAccepts (p : option string) : bool :=
  match p with
  | Some q =>
      negb (bool_decide (q = ""))
      && match deserialize q with
         | inr d => verify d && isETHBerlinPublicKey (signer (claim d))
         | inl _ => false
         end
  | None => false
  end.

(** What holds of every state the rendered page can be in. *)
Record invariant (s : State) : Prop := {
  inv_backend : verifiedBackend s = false;
  inv_inputs : forall p, p ∈ projects -> is_Some (inputValues s !! p)
}.

(** The state an event leaves behind, cell by cell. *)
Definition nextState (s : State) (ev : Event) : State :=
  match ev with
  | Mount (inr _) (inr k) =>
      mkState (verifiedFrontend s) (verifiedBackend s) (pcd s) k (inputValues s)
  | PopupReturns (inr (PcdResult pcdStr)) =>
      match parse_pcd pcdStr with
      | inr p => mkState (verifiedFrontend s) (verifiedBackend s) p
                         (publicKey s) (inputValues s)
      | inl _ => s
      end
  | ClickVerify =>
      if frontendAccepts (pcd s)
      then mkState true (verifiedBackend s) (pcd s) (publicKey s) (inputValues s)
      else s
  | Change project text =>
      if bool_decide (project ∈ projects) && negb (isNaN (Number text))
      then mkState (verifiedFrontend s) (verifiedBackend s) (pcd s) (publicKey s)
                   (<[project := Number text]> (inputValues s))
      else s
  | ClickReset =>
      mkState false (verifiedBackend s) (pcd s) (publicKey s) (inputValues s)
  | _ => s
  end.


End Home.

Arguments mkRun {_ _} _ _ _.
Arguments result {_ _} _.
Arguments store {_ _} _.
Arguments trace {_ _} _.

(** ** A small instance of the imports, to run the page on examples *)

Module Demo.

Definition ETHBERLIN_KEY : string * string := ("1ebfb986", "052db5a2").

Definition config : list TicketType :=
  [ {| cfg_eventId := "ethberlin04"; cfg_productId := "team";
       cfg_publicKey := ETHBERLIN_KEY |} ].

Definition ticket (event product mark : string) (valid : string)
  : ZKEdDSAEventTicketPCD :=
  {| claim := {| partialTicket := {| eventId := Some event;
                                      productId := Some product;
                                      attendeeEmail := Some "voter@example.org" |};
                 watermark := mark;
                 signer := ETHBERLIN_KEY |};
     proof := valid |}.

(** Three serialized credentials are known: one for the configured event, one
    with a valid proof for another event and another watermark, and one whose
    proof does not verify. *)
Definition demo_deserialize (p : string) : Exn + ZKEdDSAEventTicketPCD :=
  if bool_decide (p = "pcd-berlin") then inr (ticket "ethberlin04" "team" "123" "valid")
  else if bool_decide (p = "pcd-elsewhere") then inr (ticket "devcon" "guest" "999" "valid")
  else if bool_decide (p = "pcd-forged") then inr (ticket "ethberlin04" "team" "123" "forged")
  else inl SyntaxError.

(** The popup's string stands for its own [pcd] field, except that the empty
    string is not JSON and the empty object has no [pcd] field. *)
Definition demo_parse_pcd (pcdStr : string) : Exn + option string :=
  if bool_decide (pcdStr = "") then inl SyntaxError
  else if bool_decide (pcdStr = "{}") then inr None
  else inr (Some pcdStr).

(** Keys and ciphertexts are integers, encryption adds the key and a
    ciphertext serializes to its residue modulo 256. *)
#[export] Instance imports : Imports := {|
  PublicKey := Z;
  Ciphertext := Z;
  ETHBERLIN_ZUAUTH_CONFIG := config;
  parse_pcd := demo_parse_pcd;
  deserialize := demo_deserialize;
  verify := fun d => bool_decide (proof d = "valid");
  isETHBerlinPublicKey := fun k => bool_decide (k = ETHBERLIN_KEY);
  encrypt := fun v k => inr (v + k);
  serialize := fun c =>
    match Byte.of_N (Z.to_N (c mod 256)) with
    | Some b => [b]
    | None => []
    end
|}.

(** The same imports with an [encrypt] that rejects negative votes. *)
Definition strict : Imports := {|
  PublicKey := Z;
  Ciphertext := Z;
  ETHBERLIN_ZUAUTH_CONFIG := config;
  parse_pcd := demo_parse_pcd;
  deserialize := demo_deserialize;
  verify := fun d => bool_decide (proof d = "valid");
  isETHBerlinPublicKey := fun k => bool_decide (k = ETHBERLIN_KEY);
  encrypt := fun v k => if v <? 0 then inl (Rejected "EncodingError::OutOfRange")
                        else inr (v + k);
  serialize := fun c =>
    match Byte.of_N (Z.to_N (c mod 256)) with
    | Some b => [b]
    | None => []
    end
|}.

(** Under [strict]: the key 7 loaded, the credential verified, and -3
    entered for the second project. *)
Definition strict_negative : @State strict :=
  @run strict (@initialState strict)
       [@Mount strict (inr tt) (inr (Some 7));
        @ClickProve strict;
        @PopupReturns strict (inr (PcdResult "pcd-berlin"));
        @ClickVerify strict;
        @Change strict "project2" "-3"].

(** The page after the key 7 was loaded, the credential [p] was received and
    the frontend check was run. *)
Definition ready (p : string) : State :=
  run initialState [Mount (inr tt) (inr (Some 7)); ClickProve;
                    PopupReturns (inr (PcdResult p)); ClickVerify].

(** The page with the credential [p] received, before any check. *)
Definition received (p : string) : State :=
  run initialState [ClickProve; PopupReturns (inr (PcdResult p))].

(** The events that lead to [Demo.ready "pcd-berlin"]. *)
Definition berlin_events : list Event :=
  [Mount (inr tt) (inr (Some 7)); ClickProve;
   PopupReturns (inr (PcdResult "pcd-berlin")); ClickVerify].

(** The page with a verified credential after the key load failed. *)
Definition keyless : State :=
  run initialState
      [Mount (inr tt) (inl (Rejected "KeyError::Unreachable"));
       ClickProve; PopupReturns (inr (PcdResult "pcd-berlin")); ClickVerify].

Definition berlin_body (c1 c2 c3 : Z) : json :=
  JObj [("votes", JArr [JArr [JNum c1]; JArr [JNum c2]; JArr [JNum c3]]);
        ("pcd", JStr "pcd-berlin")].

Definition berlin_fetch (c1 c2 c3 : Z) : Effect :=
  fetch_call "http://localhost:8000/vote" "POST"
             [("Content-Type", "application/json")] (berlin_body c1 c2 c3).


(** The calls made while the key loads. *)
Definition load_calls : list Effect :=
  [initializeTfhe_call; loadPublicKey_call "http://localhost:8000/public-key"].

End Demo.

(** ** The number conversions on examples *)

Example Number_empty : Number "" = S754_zero false.
Proof. reflexivity. Qed.

Example Number_padded_integer :
  Number " 12 " = S754_finite false 6755399441055744 (-49)
  /\ BigInt (Number " 12 ") = inr 12.
Proof. split; vm_compute; reflexivity. Qed.

Example Number_negative : BigInt (Number "-1") = inr (-1).
Proof. vm_compute. reflexivity. Qed.

Example Number_tenth : Number "0.1" = S754_finite false 7205759403792794 (-56).
Proof. vm_compute. reflexivity. Qed.

Example Number_exponent : BigInt (Number "1.5e1") = inr 15.
Proof. vm_compute. reflexivity. Qed.

Example Number_hex : BigInt (Number "0x1F") = inr 31.
Proof. vm_compute. reflexivity. Qed.

Example Number_not_a_number :
  isNaN (Number "abc") = true /\ isNaN (Number "1 2") = true
  /\ isNaN (Number "-0x1F") = true /\ isNaN (Number ".") = true.
Proof. repeat split; vm_compute; reflexivity. Qed.

Example Number_overflow :
  Number "1e400" = S754_infinity false
  /\ BigInt (Number "1e400") = inl RangeError.
Proof. split; vm_compute; reflexivity. Qed.

Example Number_no_break_space :
  BigInt (Number (String "194" (String "160" "12"))) = inr 12
  /\ BigInt (Number (String "226" (String "128" (String "168" "7"))
                     +:+ String "239" (String "187" (String "191" ""))))
     = inr 7.
Proof. split; vm_compute; reflexivity. Qed.

Example Number_ties_to_even :
  BigInt (Number "9007199254740993") = inr 9007199254740992.
Proof. vm_compute. reflexivity. Qed.

(** ** Properties of the handlers *)

Section Properties.
Context `{Imports}.

Ltac unfold_monad :=
  unfold await in *;
  unfold mbind, M_bind, mret, M_ret, throw, emit,
    setVerifiedFrontend, setVerifiedBackend, setPcd, setPublicKey,
    setInputValues in *; simpl in *.

Lemma BigInt_error n e : BigInt n = inl e -> e = RangeError.
Proof.
  destruct n as [b|b| |b m ex]; simpl; try congruence.
  destruct (0 <=? ex); [congruence|].
  destruct (Z.pos m mod 2 ^ (- ex) =? 0); congruence.
Qed.

Lemma invariant_init : invariant initialState.
Proof.
  split; simpl; try congruence.
  intros p Hp. unfold projects in Hp.
  repeat (apply elem_of_cons in Hp as [->|Hp]; [eexists; reflexivity|]).
  by apply elem_of_nil in Hp.
Qed.

Lemma bind_run {A B} (m : M A) (f : A -> M B) σ :
  (m ≫= f) σ =
    match result (m σ) with
    | inr a => mkRun (result (f a (store (m σ)))) (store (f a (store (m σ))))
                     (trace (m σ) ++ trace (f a (store (m σ))))
    | inl e => mkRun (inl e) (store (m σ)) (trace (m σ))
    end.
Proof. reflexivity. Qed.

Lemma call_encrypt_run pk v σ :
  call_encrypt v pk σ = mkRun (encrypt v pk) σ [encrypt_call v pk].
Proof.
  unfold call_encrypt. rewrite bind_run. unfold emit. cbn [result store trace].
  by destruct (encrypt v pk).
Qed.

Lemma mapM_encrypt pk votes σ :
  mapM (fun vote => call_encrypt vote pk) votes σ
  = mkRun (encryptAll pk votes) σ (encryptCalls pk votes).
Proof.
  induction votes as [|v vs IH]; [reflexivity|].
  cbn [mapM encryptAll encryptCalls]. rewrite bind_run, call_encrypt_run.
  cbn [result store trace].
  destruct (encrypt v pk) as [e|c]; [reflexivity|].
  rewrite bind_run, IH. cbn [result store trace].
  destruct (encryptAll pk vs) as [e|cs]; cbn; by rewrite ?app_nil_r.
Qed.

Lemma handleClick_run s votes reply pk σ :
  publicKey s = Some pk ->
  handleClick s votes reply σ =
    match encryptAll pk votes with
    | inl e => mkRun (inl e) σ (encryptCalls pk votes)
    | inr cs =>
        mkRun reply σ
              (encryptCalls pk votes
                 ++ [fetch_call VOTE_PATH "POST" json_headers (voteBody cs (pcd s))])
    end.
Proof.
  intros Hpk. unfold handleClick. rewrite Hpk.
  rewrite bind_run, mapM_encrypt. cbn [result store trace].
  destruct (encryptAll pk votes) as [e|cs]; [reflexivity|].
  unfold_monad. destruct reply as [e|[]]; reflexivity.
Qed.

Lemma handleClick_no_key s votes reply σ :
  publicKey s = None -> handleClick s votes reply σ = mkRun (inr tt) σ [].
Proof. intros Hpk. unfold handleClick. by rewrite Hpk. Qed.

Lemma onVoteClick_run s reply :
  onVoteClick s reply s =
    match votesOf s with
    | inl e => mkRun (inl e) s []
    | inr votes => handleClick s votes reply s
    end.
Proof.
  unfold onVoteClick, votesOf.
  destruct (BigInt_property (inputValues s !! "project1")) as [e1|v1];
    [reflexivity|].
  destruct (BigInt_property (inputValues s !! "project2")) as [e2|v2];
    [reflexivity|].
  destruct (BigInt_property (inputValues s !! "project3")) as [e3|v3];
    [reflexivity|].
  unfold mbind, M_bind, await, mret, M_ret. cbn [result store trace app].
  by destruct (handleClick s [v1; v2; v3] reply s).
Qed.

(** The Vote button, case by case. *)
Lemma vote_step s reply :
  step s (ClickVote reply) =
    if voteDisabled s then mkRun (inr tt) s []
    else match votesOf s with
         | inl e => mkRun (inl e) s []
         | inr votes =>
             match publicKey s with
             | None => mkRun (inr tt) s []
             | Some pk =>
                 match encryptAll pk votes with
                 | inl e => mkRun (inl e) s (encryptCalls pk votes)
                 | inr cs =>
                     mkRun reply s
                           (encryptCalls pk votes
                              ++ [fetch_call VOTE_PATH "POST" json_headers
                                             (voteBody cs (pcd s))])
                 end
             end
         end.
Proof.
  unfold step, handler. destruct (voteDisabled s); [reflexivity|].
  rewrite onVoteClick_run. destruct (votesOf s) as [e|votes]; [reflexivity|].
  destruct (publicKey s) as [pk|] eqn:Hpk.
  - by rewrite (handleClick_run _ _ _ pk).
  - by rewrite handleClick_no_key.
Qed.

Lemma vote_store s reply : store (step s (ClickVote reply)) = s.
Proof.
  rewrite vote_step. destruct (voteDisabled s); [reflexivity|].
  destruct (votesOf s) as [e|votes]; [reflexivity|].
  destruct (publicKey s) as [pk|]; [|reflexivity].
  by destruct (encryptAll pk votes).
Qed.

Lemma step_store s ev : store (step s ev) = nextState s ev.
Proof.
  destruct ev as [init key| |popup| |project text|reply| ];
    [| | | | |by rewrite vote_store|]; unfold step, handler, nextState.
  - unfold loadKeyEffect. by destruct init as [?|[]], key as [?|?].
  - unfold proveDisabled, getProof_opens. by destruct (truthy (pcd s)).
  - unfold getProof_resumes.
    destruct popup as [?|[pcdStr|?]]; unfold_monad; try reflexivity.
    by destruct (parse_pcd pcdStr).
  - unfold verifyDisabled, verifyProofFrontend, frontendAccepts.
    destruct (pcd s) as [p|] eqn:Hp; simpl.
    2:{ by destruct (verifiedFrontend s). }
    destruct (bool_decide (p = "")) eqn:Hne; simpl.
    { reflexivity. }
    destruct (verifiedFrontend s) eqn:Hv; simpl.
    { destruct (deserialize p) as [?|d]; [reflexivity|].
      destruct (verify d && isETHBerlinPublicKey (signer (claim d)));
        [|reflexivity].
      destruct s; simpl in *. by subst. }
    unfold_monad.
    destruct (deserialize p) as [?|d]; simpl; [reflexivity|].
    destruct (verify d); simpl; [|reflexivity].
    destruct (isETHBerlinPublicKey (signer (claim d))); simpl; by rewrite ?Hp.
  - unfold handleInputChange. destruct (bool_decide (project ∈ projects));
      [|reflexivity].
    by destruct (isNaN (Number text)).
  - reflexivity.
Qed.

Lemma run_cons s ev evs : run s (ev :: evs) = run (nextState s ev) evs.
Proof. unfold run at 1. simpl. by rewrite step_store. Qed.

Lemma run_app s evs evs' : run s (evs ++ evs') = run (run s evs) evs'.
Proof. apply fold_left_app. Qed.

Lemma nextState_verifiedBackend s ev :
  verifiedBackend (nextState s ev) = verifiedBackend s.
Proof.
  destruct ev as [init key| |popup| |project text|reply| ]; simpl;
    try reflexivity.
  - by destruct init as [?|[]], key as [?|?].
  - destruct popup as [?|[pcdStr|?]]; try reflexivity.
    by destruct (parse_pcd pcdStr).
  - by destruct (frontendAccepts (pcd s)).
  - by destruct (bool_decide (project ∈ projects) && negb (isNaN (Number text))).
Qed.

Lemma run_verifiedBackend s evs :
  verifiedBackend (run s evs) = verifiedBackend s.
Proof.
  revert s. induction evs as [|ev evs IH]; intros s; [reflexivity|].
  by rewrite run_cons, IH, nextState_verifiedBackend.
Qed.

(** When [verifiedFrontend] is set at the end of a run it was set at its
    start or the frontend check accepted, at some point of the run, the
    credential stored at that point. *)
Lemma run_verifiedFrontend_origin s evs :
  verifiedFrontend (run s evs) = true ->
  verifiedFrontend s = true \/
  exists evs1 evs2, evs = (evs1 ++ ClickVerify :: evs2)%list /\
                    frontendAccepts (pcd (run s evs1)) = true.
Proof.
  revert s. induction evs as [|ev evs IH]; intros s Hv; [by left|].
  rewrite run_cons in Hv. destruct (IH _ Hv) as [Hs|(evs1 & evs2 & -> & Hacc)].
  2:{ right. exists (ev :: evs1), evs2. split; [reflexivity|].
      by rewrite run_cons. }
  destruct ev as [init key| |popup| |project text|reply| ]; simpl in Hs;
    try (by left).
  - left. by destruct init as [?|[]], key as [?|?].
  - left. destruct popup as [?|[pcdStr|?]]; try done.
    by destruct (parse_pcd pcdStr).
  - destruct (frontendAccepts (pcd s)) eqn:Hacc; [|by left].
    right. by exists [], evs.
  - left.
    by destruct (bool_decide (project ∈ projects) && negb (isNaN (Number text))).
Qed.

Lemma invariant_step s ev : invariant s -> invariant (store (step s ev)).
Proof.
  intros [Hb Hi]. rewrite step_store.
  destruct ev as [init key| |popup| |project text|reply| ]; simpl;
    try (by split).
  - by destruct init as [?|[]], key as [?|?].
  - destruct popup as [?|[pcdStr|?]]; try (by split).
    by destruct (parse_pcd pcdStr).
  - by destruct (frontendAccepts (pcd s)).
  - destruct (bool_decide (project ∈ projects) && negb (isNaN (Number text)));
      [|by split].
    split; simpl; [exact Hb|]. intros p Hp.
    destruct (decide (project = p)) as [->|Hne].
    + rewrite lookup_insert_eq. by eexists.
    + rewrite lookup_insert_ne by done. by apply Hi.
Qed.

Lemma invariant_run s evs : invariant s -> invariant (run s evs).
Proof.
  revert s. induction evs as [|ev evs IH]; intros s Hs; [exact Hs|].
  apply IH, invariant_step, Hs.
Qed.

Lemma encryptCalls_elem pk votes c :
  c ∈ encryptCalls pk votes -> exists v, c = encrypt_call v pk /\ v ∈ votes.
Proof.
  induction votes as [|v vs IH]; simpl; [by intros ?%elem_of_nil|].
  intros [->|Hc]%elem_of_cons.
  - exists v. split; [reflexivity|apply elem_of_cons; by left].
  - destruct (encrypt v pk); [by apply elem_of_nil in Hc|].
    destruct (IH Hc) as (w & -> & Hw). exists w.
    split; [reflexivity|apply elem_of_cons; by right].
Qed.

Lemma encryptAll_Forall2 pk votes cs :
  encryptAll pk votes = inr cs ->
  Forall2 (fun v c => encrypt v pk = inr c) votes cs.
Proof.
  revert cs. induction votes as [|v vs IH]; simpl; intros cs Hcs.
  - injection Hcs as <-. constructor.
  - destruct (encrypt v pk) as [e|c] eqn:Hc; [discriminate|].
    destruct (encryptAll pk vs) as [e|cs']; [discriminate|].
    injection Hcs as <-. constructor; [exact Hc|by apply IH].
Qed.

(** A submission in the trace of the Vote button determines how it was made. *)
Lemma vote_fetch_inv s reply url method headers body :
  fetch_call url method headers body ∈ trace (step s (ClickVote reply)) ->
  voteDisabled s = false /\
  exists pk votes cs,
    publicKey s = Some pk /\ votesOf s = inr votes /\
    encryptAll pk votes = inr cs /\
    url = VOTE_PATH /\ method = "POST" /\ headers = json_headers /\
    body = voteBody cs (pcd s).
Proof.
  rewrite vote_step. destruct (voteDisabled s); [by intros ?%elem_of_nil|].
  destruct (votesOf s) as [e|votes]; [by intros ?%elem_of_nil|].
  destruct (publicKey s) as [pk|]; [|by intros ?%elem_of_nil].
  destruct (encryptAll pk votes) as [e|cs] eqn:Hcs; simpl.
  - intros (v & Hv & _)%encryptCalls_elem. discriminate.
  - intros [(v & Hv & _)%encryptCalls_elem|Hf%list_elem_of_singleton]%elem_of_app;
      [discriminate|].
    injection Hf as -> -> -> ->. split; [reflexivity|].
    exists pk, votes, cs. by repeat split.
Qed.


Lemma votesOf_error s e :
  (forall p, p ∈ projects -> is_Some (inputValues s !! p)) ->
  votesOf s = inl e -> e = RangeError.
Proof.
  intros Hi. unfold votesOf, BigInt_property.
  destruct (Hi "project1") as [n1 ->]; [set_solver|].
  destruct (Hi "project2") as [n2 ->]; [set_solver|].
  destruct (Hi "project3") as [n3 ->]; [set_solver|].
  destruct (BigInt n1) as [e1|v1] eqn:H1;
    [intros [= <-]; by apply BigInt_error in H1|].
  destruct (BigInt n2) as [e2|v2] eqn:H2;
    [intros [= <-]; by apply BigInt_error in H2|].
  destruct (BigInt n3) as [e3|v3] eqn:H3;
    [intros [= <-]; by apply BigInt_error in H3|].
  discriminate.
Qed.

Lemma Number_three_halves :
  Number "1.5" = S754_finite false 6755399441055744 (-52).
Proof. vm_compute. reflexivity. Qed.

(** Only the Vote button posts a request, and only to the vote path. *)
Lemma step_fetch_inv s ev url method headers body :
  fetch_call url method headers body ∈ trace (step s ev) ->
  (exists reply, ev = ClickVote reply) /\ voteDisabled s = false /\
  url = VOTE_PATH /\ method = "POST".
Proof.
  intros Hc. destruct ev as [init key| |popup| |project text|reply| ].
  - exfalso. unfold step, handler, loadKeyEffect in Hc.
    destruct init as [?|[]], key as [?|?]; unfold_monad;
      repeat (apply elem_of_cons in Hc as [Hc|Hc]; [discriminate|]);
      by apply elem_of_nil in Hc.
  - exfalso. unfold step, handler, proveDisabled, getProof_opens in Hc.
    destruct (truthy (pcd s)); [by apply elem_of_nil in Hc|].
    apply list_elem_of_singleton in Hc. discriminate.
  - exfalso. unfold step, handler, getProof_resumes in Hc.
    destruct popup as [?|[pcdStr|?]]; unfold_monad.
    + by apply elem_of_nil in Hc.
    + destruct (parse_pcd pcdStr); simpl in Hc; by apply elem_of_nil in Hc.
    + apply list_elem_of_singleton in Hc. discriminate.
  - exfalso. unfold step, handler, verifyDisabled, verifyProofFrontend in Hc.
    destruct (negb (truthy (pcd s)) || verifiedFrontend s);
      [by apply elem_of_nil in Hc|].
    destruct (pcd s) as [p|];
      [|apply list_elem_of_singleton in Hc; discriminate].
    destruct (bool_decide (p = ""));
      [apply list_elem_of_singleton in Hc; discriminate|].
    unfold_monad. destruct (deserialize p) as [?|d]; simpl in Hc;
      [by apply elem_of_nil in Hc|].
    destruct (verify d); simpl in Hc;
      [|apply list_elem_of_singleton in Hc; discriminate].
    destruct (isETHBerlinPublicKey (signer (claim d))); simpl in Hc;
      apply list_elem_of_singleton in Hc; discriminate.
  - exfalso. unfold step, handler, handleInputChange in Hc.
    destruct (bool_decide (project ∈ projects)); [|by apply elem_of_nil in Hc].
    destruct (isNaN (Number text)); by apply elem_of_nil in Hc.
  - apply vote_fetch_inv in Hc as (Hd & _ & _ & _ & _ & _ & _ & -> & -> & _).
    split; [by exists reply|]. by split.
  - exfalso. by apply elem_of_nil in Hc.
Qed.

(** ** The claims *)


(** C2 (amended): whenever the Vote button makes a call (an encryption or the
    submission), [verifiedFrontend] is set: at some point of the run the
    frontend check accepted the credential stored at that point. The backend
    check is not required: [verifiedBackend] is [false] and no event of the
    run has sent a request to the verification endpoint. *)
Theorem vote_needs_frontend_check_only (evs : list Event) (reply : Exn + unit)
    (c : Effect) :
  let s := run initialState evs in
  c ∈ trace (step s (ClickVote reply)) ->
  verifiedFrontend s = true /\
  (exists evs1 evs2 p d,
      evs = (evs1 ++ ClickVerify :: evs2)%list /\
      pcd (run initialState evs1) = Some p /\ p <> "" /\
      deserialize p = inr d /\ verify d = true /\
      isETHBerlinPublicKey (signer (claim d)) = true) /\
  verifiedBackend s = false /\
  forall evs1 ev evs2 method headers body,
    evs = (evs1 ++ ev :: evs2)%list ->
    fetch_call "/api/verify" method headers body
      ∉ trace (step (run initialState evs1) ev).
Proof.
  intros s Hc.
  assert (voteDisabled s = false) as Hd.
  { rewrite vote_step in Hc. destruct (voteDisabled s); [|reflexivity].
    by apply elem_of_nil in Hc. }
  apply orb_false_elim in Hd as [Hf%negb_false_iff Hb].
  split; [exact Hf|]. split; [|split; [exact Hb|]].
  - destruct (run_verifiedFrontend_origin _ _ Hf)
      as [?|(evs1 & evs2 & -> & Hacc)]; [discriminate|].
    unfold frontendAccepts in Hacc.
    destruct (pcd (run initialState evs1)) as [p|] eqn:Hpcd; [|discriminate].
    apply andb_prop in Hacc as [Hp Hacc].
    destruct (deserialize p) as [e|d] eqn:Hdes; [discriminate|].
    apply andb_prop in Hacc as [Hv Hs].
    exists evs1, evs2, p, d. split_and!; try done.
    intros ->. discriminate.
  - intros evs1 ev evs2 method headers body _ Hin.
    apply step_fetch_inv in Hin as (_ & _ & Hurl & _). discriminate.
Qed.

(** C3 (amended): the frontend check marks a credential as verified exactly
    when the stored credential is non-empty, deserializes, passes
    [ZKEdDSAEventTicketPCDPackage.verify] and its signer passes
    [isETHBerlinPublicKey]; nothing else is consulted. The proof request made
    by [getProof] always carries the watermark "123". *)
Theorem frontend_check_is_validity_and_signer (s : State) (popup : Exn + PopupResult) :
  head (trace (call (fun s => getProof s popup) s))
    = Some (zuAuthPopup_call fieldsToReveal "123" ETHBERLIN_ZUAUTH_CONFIG) /\
  (verifiedFrontend (store (call verifyProofFrontend s)) = true <->
   verifiedFrontend s = true \/
   exists p d, pcd s = Some p /\ p <> "" /\ deserialize p = inr d /\
               verify d = true /\
               isETHBerlinPublicKey (signer (claim d)) = true).
Proof.
  split.
  { unfold call, getProof. rewrite bind_run. unfold getProof_opens, emit.
    cbn [result store trace]. reflexivity. }
  unfold call, verifyProofFrontend.
  destruct (pcd s) as [p|] eqn:Hp.
  2:{ simpl. split; [by left|]. intros [Hv|(p & d & Hq & _)]; [done|discriminate]. }
  destruct (bool_decide (p = "")) eqn:Hne.
  { apply bool_decide_eq_true in Hne as ->. simpl.
    split; [by left|]. intros [Hv|(p & d & [= <-] & Hq & _)]; done. }
  apply bool_decide_eq_false in Hne.
  rewrite bind_run. unfold await.
  destruct (deserialize p) as [e|d] eqn:Hd.
  { simpl. split; [by left|].
    intros [Hv|(p' & d & [= <-] & _ & Hq & _)]; [done|congruence]. }
  cbn [mret M_ret result store trace].
  destruct (verify d) eqn:Hver.
  2:{ simpl. split; [by left|].
      intros [Hv|(p' & d' & [= <-] & _ & Hq & Hv' & _)]; [done|congruence]. }
  destruct (isETHBerlinPublicKey (signer (claim d))) eqn:Hsig.
  2:{ simpl. split; [by left|].
      intros [Hv|(p' & d' & [= <-] & _ & Hq & _ & Hs')]; [done|congruence]. }
  simpl. split; [|reflexivity]. intros _. right. exists p, d. by repeat split.
Qed.



(** C6 (amended): the body of the submission is an object whose first field
    [votes] holds the serialized ciphertext of each vote, in the order of the
    votes, and whose only other field is [pcd] (there is no [proof] field),
    present when a credential is in store and holding it; the votes occur in
    the body only through [encrypt]. *)
Theorem vote_body_is_votes_and_pcd (s : State) (reply : Exn + unit)
    (url method : string) (headers : list (string * string)) (body : json) :
  fetch_call url method headers body ∈ trace (step s (ClickVote reply)) ->
  exists pk votes cs,
    publicKey s = Some pk /\ votesOf s = inr votes /\
    Forall2 (fun v c => encrypt v pk = inr c) votes cs /\
    url = VOTE_PATH /\ method = "POST" /\
    body = JObj (("votes", JArr (map (fun c => Array_from (serialize c)) cs))
                   :: optional_field "pcd" (pcd s)) /\
    field "proof" body = None.
Proof.
  intros Hin.
  apply vote_fetch_inv in Hin
    as (_ & pk & votes & cs & Hpk & Hv & Hcs & -> & -> & _ & ->).
  exists pk, votes, cs. split_and!; try done.
  - by apply encryptAll_Forall2.
  - unfold voteBody. by destruct (pcd s).
Qed.

(** C7 (amended): while no public key is loaded, the Vote action encrypts
    nothing, submits nothing, shows no notification and leaves the state as
    it was. The key load only calls [initializeTfhe] and, when that
    succeeded, [loadPublicKey] on the key path: it never shows a
    notification, and when it ends without a key it leaves the state as it
    was. *)
Theorem vote_without_key_is_silent (s : State) (reply : Exn + unit)
    (init : Exn + unit) (key : Exn + option PublicKey) :
  publicKey s = None ->
  trace (step s (ClickVote reply)) = [] /\
  store (step s (ClickVote reply)) = s /\
  trace (step s (Mount init key))
    = initializeTfhe_call ::
      match init with
      | inr _ => [loadPublicKey_call PUBLIC_KEY_PATH]
      | inl _ => []
      end /\
  (publicKey (store (step s (Mount init key))) = None ->
   store (step s (Mount init key)) = s).
Proof.
  intros Hpk. rewrite vote_store, vote_step, Hpk. split_and!.
  - destruct (voteDisabled s); [reflexivity|]. by destruct (votesOf s).
  - reflexivity.
  - by destruct init as [?|[]], key as [?|?].
  - rewrite step_store. destruct init as [?|[]], key as [?|k]; try reflexivity.
    simpl. intros ->. destruct s; simpl in *. by rewrite Hpk.
Qed.

(** C8: Reset sets [verifiedFrontend] to [false] and changes nothing else;
    in particular [verifiedBackend] keeps its value. *)
Theorem reset_clears_frontend_flag_only (s : State) :
  let r := step s ClickReset in
  result r = inr tt /\ trace r = [] /\
  verifiedFrontend (store r) = false /\
  verifiedBackend (store r) = verifiedBackend s /\
  pcd (store r) = pcd s /\
  publicKey (store r) = publicKey s /\
  inputValues (store r) = inputValues s.
Proof. by repeat split. Qed.

(** C9: [handleInputChange] leaves the three values as they are when the text
    parses to NaN; otherwise it stores the number under the targeted project
    and leaves every other project as it was. The other cells of the state
    are never touched. *)
Theorem handleInputChange_frame (s : State) (text project : string) :
  let r := call (fun s => handleInputChange s text project) s in
  verifiedFrontend (store r) = verifiedFrontend s /\
  verifiedBackend (store r) = verifiedBackend s /\
  pcd (store r) = pcd s /\
  publicKey (store r) = publicKey s /\
  (isNaN (Number text) = true -> inputValues (store r) = inputValues s) /\
  (isNaN (Number text) = false ->
   inputValues (store r) !! project = Some (Number text) /\
   forall other, other <> project ->
                 inputValues (store r) !! other = inputValues s !! other).
Proof.
  unfold call, handleInputChange.
  destruct (isNaN (Number text)); simpl; repeat split; try done.
  - apply lookup_insert_eq.
  - intros other Hne. by apply lookup_insert_ne.
Qed.

(** C10: [handleInputChange] accepts and stores numbers that [BigInt]
    rejects, and 1.5 is one: once such a text was entered for any of the three
    projects, the next Vote action ends with the [RangeError] of [BigInt]
    without a call to [encrypt] or [fetch], the state being left as it was. *)
Theorem non_integral_input_breaks_vote (evs : list Event) (project : string)
    (reply : Exn + unit) :
  let s := run initialState evs in
  (isNaN (Number "1.5") = false /\ BigInt (Number "1.5") = inl RangeError) /\
  forall text : string,
    let s' := store (step s (Change project text)) in
    isNaN (Number text) = false ->
    BigInt (Number text) = inl RangeError ->
    project ∈ projects ->
    voteDisabled s = false ->
    inputValues s' !! project = Some (Number text) /\
    result (step s' (ClickVote reply)) = inl RangeError /\
    trace (step s' (ClickVote reply)) = [] /\
    store (step s' (ClickVote reply)) = s'.
Proof.
  intros s. split; [by rewrite Number_three_halves|].
  intros text s' Hnan Hbig Hp Hd.
  assert (s' = mkState (verifiedFrontend s) (verifiedBackend s) (pcd s)
                       (publicKey s)
                       (<[project := Number text]> (inputValues s))) as Hs'.
  { unfold s', step, handler, handleInputChange.
    rewrite bool_decide_eq_true_2 by exact Hp. by rewrite Hnan. }
  assert (exists e, votesOf s' = inl e) as [e He].
  { unfold votesOf. rewrite Hs'. cbn [inputValues].
    unfold projects in Hp.
    apply elem_of_cons in Hp as [->|Hp].
    { rewrite lookup_insert_eq. cbn [BigInt_property]. rewrite Hbig. by eexists. }
    destruct (BigInt_property (_ !! "project1")); [by eexists|].
    apply elem_of_cons in Hp as [->|Hp].
    { rewrite lookup_insert_eq. cbn [BigInt_property]. rewrite Hbig. by eexists. }
    destruct (BigInt_property (_ !! "project2")); [by eexists|].
    apply list_elem_of_singleton in Hp as ->.
    rewrite lookup_insert_eq. cbn [BigInt_property]. rewrite Hbig. by eexists. }
  assert (e = RangeError) as ->.
  { apply (votesOf_error s'); [|exact He].
    apply inv_inputs, invariant_step, invariant_run, invariant_init. }
  assert (voteDisabled s' = false) as Hd' by (by rewrite Hs').
  split_and!.
  - rewrite Hs'. apply lookup_insert_eq.
  - by rewrite vote_step, Hd', He.
  - by rewrite vote_step, Hd', He.
  - apply vote_store.
Qed.

End Properties.

(** ** The claims on concrete runs *)

Section Runs.
Import Demo.


(** C2, counterexample: after the frontend check alone, with
    [verifiedBackend] still [false] and no request to the verification
    endpoint ever made, the Vote button submits the ballot. *)
Lemma vote_sent_without_backend_check :
  feasible initialState 0 berlin_events = true /\
  verifiedBackend (ready "pcd-berlin") = false /\
  trace (step (ready "pcd-berlin") (ClickVote (inr tt)))
    = [encrypt_call 0 7; encrypt_call 0 7; encrypt_call 0 7; berlin_fetch 7 7 7].
Proof. split_and!; vm_compute; reflexivity. Qed.

Lemma vote_needs_frontend_check_only_witness :
  verifiedFrontend (run initialState berlin_events) = true /\
  (exists evs1 evs2 p d,
      berlin_events = (evs1 ++ ClickVerify :: evs2)%list /\
      pcd (run initialState evs1) = Some p /\ p <> "" /\
      deserialize p = inr d /\ verify d = true /\
      isETHBerlinPublicKey (signer (claim d)) = true) /\
  verifiedBackend (run initialState berlin_events) = false /\
  forall evs1 ev evs2 method headers body,
    berlin_events = (evs1 ++ ev :: evs2)%list ->
    fetch_call "/api/verify" method headers body
      ∉ trace (step (run initialState evs1) ev).
Proof.
  apply (vote_needs_frontend_check_only berlin_events (inr tt) (berlin_fetch 7 7 7)).
  vm_compute. do 3 apply list_elem_of_further. apply list_elem_of_here.
Defined.

(** C3, counterexample: a credential for another event and product than the
    configured ones, carrying another watermark than the one requested, is
    accepted by the frontend check. *)
Lemma frontend_accepts_other_event_and_watermark :
  verifiedFrontend (store (step (received "pcd-elsewhere") ClickVerify)) = true /\
  exists d, deserialize "pcd-elsewhere" = inr d /\
            eligible ETHBERLIN_ZUAUTH_CONFIG d = false /\
            watermark (claim d) <> "123".
Proof.
  split; [vm_compute; reflexivity|].
  exists (ticket "devcon" "guest" "999" "valid").
  split; [reflexivity|]. split; [vm_compute; reflexivity|discriminate].
Qed.

Lemma frontend_check_is_validity_and_signer_witness :
  verifiedFrontend (store (call verifyProofFrontend (received "pcd-berlin"))) = true.
Proof.
  apply (proj2 (frontend_check_is_validity_and_signer
                  (received "pcd-berlin") (inr (OtherResult "popupClosed")))).
  right. exists "pcd-berlin", (ticket "ethberlin04" "team" "123" "valid").
  split; [vm_compute; reflexivity|]. split; [discriminate|].
  split; [reflexivity|]. split; vm_compute; reflexivity.
Defined.





(** C6, counterexample: the submitted body has no [proof] field; the
    credential travels in the field [pcd]. *)
Lemma vote_body_has_no_proof_field :
  last (trace (step (ready "pcd-berlin") (ClickVote (inr tt))))
    = Some (berlin_fetch 7 7 7) /\
  field "proof" (berlin_body 7 7 7) = None /\
  field "pcd" (berlin_body 7 7 7) = Some (JStr "pcd-berlin").
Proof. repeat split; vm_compute; reflexivity. Qed.

Lemma vote_body_is_votes_and_pcd_witness :
  exists pk votes cs,
    publicKey (ready "pcd-berlin") = Some pk /\
    votesOf (ready "pcd-berlin") = inr votes /\
    Forall2 (fun v c => encrypt v pk = inr c) votes cs /\
    "http://localhost:8000/vote" = VOTE_PATH /\ "POST" = "POST" /\
    berlin_body 7 7 7
      = JObj (("votes", JArr (map (fun c => Array_from (serialize c)) cs))
                :: optional_field "pcd" (pcd (ready "pcd-berlin"))) /\
    field "proof" (berlin_body 7 7 7) = None.
Proof.
  apply (vote_body_is_votes_and_pcd
           (ready "pcd-berlin") (inr tt) "http://localhost:8000/vote" "POST"
           [("Content-Type", "application/json")] (berlin_body 7 7 7)).
  vm_compute. do 3 apply list_elem_of_further. apply list_elem_of_here.
Defined.

(** C7, counterexample: the key load failed, the Vote button is enabled, and
    neither the failed load nor the Vote action shows anything to the user:
    the load made its two calls and no notification, the Vote action made no
    call at all. *)
Lemma failed_key_load_shows_no_error :
  publicKey keyless = None /\
  voteDisabled keyless = false /\
  trace (step initialState
              (Mount (inr tt) (inl (Rejected "KeyError::Unreachable"))))
    = load_calls /\
  trace (step keyless (ClickVote (inr tt))) = [].
Proof. repeat split; vm_compute; reflexivity. Qed.

Lemma vote_without_key_is_silent_witness :
  trace (step keyless (ClickVote (inr tt))) = [] /\
  store (step keyless (ClickVote (inr tt))) = keyless /\
  trace (step keyless (Mount (inr tt) (inl TypeError)))
    = [initializeTfhe_call; loadPublicKey_call PUBLIC_KEY_PATH] /\
  (publicKey (store (step keyless (Mount (inr tt) (inl TypeError)))) = None ->
   store (step keyless (Mount (inr tt) (inl TypeError))) = keyless).
Proof.
  apply (vote_without_key_is_silent keyless (inr tt) (inr tt) (inl TypeError)).
  vm_compute. reflexivity.
Defined.

Lemma handleInputChange_frame_witness :
  let s := ready "pcd-berlin" in
  inputValues (store (call (fun s => handleInputChange s "abc" "project1") s))
    = inputValues s /\
  inputValues (store (call (fun s => handleInputChange s "42" "project2") s))
    !! "project2" = Some (Number "42") /\
  inputValues (store (call (fun s => handleInputChange s "42" "project2") s))
    !! "project1" = inputValues s !! "project1".
Proof.
  intros s.
  destruct (handleInputChange_frame s "abc" "project1")
    as (_ & _ & _ & _ & Hnan & _).
  destruct (handleInputChange_frame s "42" "project2")
    as (_ & _ & _ & _ & _ & Hnum).
  split; [apply Hnan; vm_compute; reflexivity|].
  destruct (Hnum eq_refl) as [Hset Hother].
  split; [exact Hset|apply Hother; discriminate].
Defined.

Lemma non_integral_input_breaks_vote_witness :
  let s' := store (step (ready "pcd-berlin") (Change "project3" "1.5")) in
  inputValues s' !! "project3" = Some (Number "1.5") /\
  result (step s' (ClickVote (inr tt))) = inl RangeError /\
  trace (step s' (ClickVote (inr tt))) = [] /\
  store (step s' (ClickVote (inr tt))) = s'.
Proof.
  apply (proj2 (non_integral_input_breaks_vote berlin_events "project3" (inr tt))
               "1.5").
  - vm_compute. reflexivity.
  - vm_compute. reflexivity.
  - do 2 apply list_elem_of_further. apply list_elem_of_here.
  - vm_compute. reflexivity.
Defined.

End Runs.


(** ** Further properties of the page *)

Section Further.
Context `{Imports}.

Ltac unfold_run :=
  unfold await in *;
  unfold mbind, M_bind, mret, M_ret, throw, emit,
    setVerifiedFrontend, setVerifiedBackend, setPcd, setPublicKey,
    setInputValues in *; simpl in *.



Lemma run_pcd_origin s evs p :
  pcd (run s evs) = Some p ->
  pcd s = Some p \/
  exists pcdStr, PopupReturns (inr (PcdResult pcdStr)) ∈ evs /\
                 parse_pcd pcdStr = inr (Some p).
Proof.
  revert s. induction evs as [|ev evs IH]; intros s Hp; [by left|].
  rewrite run_cons in Hp. destruct (IH _ Hp) as [Hs|(pcdStr & Hin & Hparse)].
  2:{ right. exists pcdStr. split; [by apply list_elem_of_further|exact Hparse]. }
  destruct ev as [init key| |popup| |project text|reply| ]; simpl in Hs;
    try (by left).
  - left. by destruct init as [?|[]], key as [?|?].
  - destruct popup as [?|[pcdStr|?]]; try (by left).
    destruct (parse_pcd pcdStr) as [?|q] eqn:Hq; [by left|].
    simpl in Hs. subst q. right. exists pcdStr.
    split; [apply list_elem_of_here|exact Hq].
  - left. by destruct (frontendAccepts (pcd s)).
  - left.
    by destruct (bool_decide (project ∈ projects) && negb (isNaN (Number text))).
Qed.

(** X2: the credential in store is always the [pcd] field parsed from a
    popup result of type pcd that a popup returned. *)
Theorem credential_comes_from_popup (evs : list Event) (p : string) :
  pcd (run initialState evs) = Some p ->
  exists pcdStr, PopupReturns (inr (PcdResult pcdStr)) ∈ evs /\
                 parse_pcd pcdStr = inr (Some p).
Proof.
  intros Hp. by destruct (run_pcd_origin _ _ _ Hp) as [Hs|Hev]; [|exact Hev].
Qed.

Lemma run_publicKey_origin s evs k :
  publicKey (run s evs) = Some k ->
  publicKey s = Some k \/ Mount (inr tt) (inr (Some k)) ∈ evs.
Proof.
  revert s. induction evs as [|ev evs IH]; intros s Hk; [by left|].
  rewrite run_cons in Hk. destruct (IH _ Hk) as [Hs|Hin].
  2:{ right. by apply list_elem_of_further. }
  destruct ev as [init key| |popup| |project text|reply| ]; simpl in Hs;
    try (by left).
  - destruct init as [?|[]], key as [?|k']; try (by left).
    simpl in Hs. subst k'. right. apply list_elem_of_here.
  - left. destruct popup as [?|[pcdStr|?]]; try done.
    by destruct (parse_pcd pcdStr).
  - left. by destruct (frontendAccepts (pcd s)).
  - left.
    by destruct (bool_decide (project ∈ projects) && negb (isNaN (Number text))).
Qed.

Lemma vote_encrypt_key s reply v pk :
  encrypt_call v pk ∈ trace (step s (ClickVote reply)) -> publicKey s = Some pk.
Proof.
  rewrite vote_step. destruct (voteDisabled s); [by intros ?%elem_of_nil|].
  destruct (votesOf s) as [e|votes]; [by intros ?%elem_of_nil|].
  destruct (publicKey s) as [k|]; [|by intros ?%elem_of_nil].
  assert (encrypt_call v pk ∈ encryptCalls k votes -> Some k = Some pk) as Hk.
  { intros (w & [= _ ->] & _)%encryptCalls_elem. reflexivity. }
  destruct (encryptAll k votes) as [e|cs]; simpl; [exact Hk|].
  intros [Hc|Hf%list_elem_of_singleton]%elem_of_app; [by apply Hk|discriminate].
Qed.

(** X3: every encryption the Vote button requests is under a key that a
    completed key load delivered: [initializeTfhe] had succeeded and
    [loadPublicKey] had returned that key. *)
Theorem encryption_key_comes_from_load (evs : list Event) (reply : Exn + unit)
    (v : Z) (pk : PublicKey) :
  encrypt_call v pk ∈ trace (step (run initialState evs) (ClickVote reply)) ->
  Mount (inr tt) (inr (Some pk)) ∈ evs.
Proof.
  intros Hk%vote_encrypt_key.
  by destruct (run_publicKey_origin _ _ _ Hk) as [Hs|Hin].
Qed.

Lemma nextState_inputs s ev :
  dom (inputValues s) = list_to_set projects ->
  (forall p n, inputValues s !! p = Some n -> isNaN n = false) ->
  dom (inputValues (nextState s ev)) = list_to_set projects /\
  (forall p n, inputValues (nextState s ev) !! p = Some n -> isNaN n = false).
Proof.
  intros Hdom Hnan.
  destruct ev as [init key| |popup| |project text|reply| ]; simpl;
    try (by split).
  - by destruct init as [?|[]], key as [?|?].
  - destruct popup as [?|[pcdStr|?]]; try (by split).
    by destruct (parse_pcd pcdStr).
  - by destruct (frontendAccepts (pcd s)).
  - destruct (bool_decide (project ∈ projects)) eqn:Hp; simpl; [|by split].
    destruct (isNaN (Number text)) eqn:Hn; simpl; [by split|].
    apply bool_decide_eq_true in Hp. split.
    + rewrite dom_insert_L, Hdom.
      assert (project ∈ (list_to_set projects : gset string)) as Hin
        by (apply elem_of_list_to_set; exact Hp).
      apply (subseteq_union_1_L (C := gset string)), singleton_subseteq_l, Hin.
    + intros p n [[<- <-]|[_ Hl]]%lookup_insert_Some; [exact Hn|by eapply Hnan].
Qed.

(** X4: in every state of the page the input object has exactly the three
    keys project1, project2 and project3, and none of its values is NaN. *)
Theorem inputs_three_keys_never_NaN (evs : list Event) :
  dom (inputValues (run initialState evs)) = list_to_set projects /\
  forall p n, inputValues (run initialState evs) !! p = Some n ->
              isNaN n = false.
Proof.
  assert (forall s,
             dom (inputValues s) = list_to_set projects ->
             (forall p n, inputValues s !! p = Some n -> isNaN n = false) ->
             dom (inputValues (run s evs)) = list_to_set projects /\
             (forall p n, inputValues (run s evs) !! p = Some n ->
                          isNaN n = false)) as Hrun.
  { induction evs as [|ev evs IH]; intros s Hdom Hnan; [by split|].
    rewrite run_cons.
    destruct (nextState_inputs s ev Hdom Hnan) as [Hdom' Hnan'].
    by apply IH. }
  apply Hrun.
  - simpl. rewrite !dom_insert_L, dom_empty_L. set_solver.
  - intros p n. simpl.
    intros [[_ <-]|[_ [[_ <-]|[_ [[_ <-]|[_ Hl]]%lookup_insert_Some]]%lookup_insert_Some]]%lookup_insert_Some;
      try reflexivity.
    by rewrite lookup_empty in Hl.
Qed.

(** X5: two edits of the same input: the later one wins, unless its text
    parses to NaN, in which case the earlier one stays; edits of different
    inputs can be made in either order. *)
Theorem input_edits_compose (s : State) (p q t1 t2 : string) :
  run s [Change p t1; Change p t2]
    = (if isNaN (Number t2) then run s [Change p t1] else run s [Change p t2])
  /\ (p <> q -> run s [Change p t1; Change q t2] = run s [Change q t2; Change p t1]).
Proof.
  rewrite !run_cons. unfold run, fold_left, nextState. split.
  - destruct (bool_decide (p ∈ projects)); simpl;
      [|by destruct (isNaN (Number t2))].
    destruct (isNaN (Number t1)), (isNaN (Number t2)); simpl; try reflexivity.
    by rewrite insert_insert_eq.
  - intros Hne.
    destruct (bool_decide (p ∈ projects)), (bool_decide (q ∈ projects)),
      (isNaN (Number t1)), (isNaN (Number t2)); simpl; try reflexivity.
    by rewrite insert_insert_ne.
Qed.

(** X6: on a page whose stored credential passes the frontend check and is
    marked verified, Reset disables the Vote button, and running the frontend
    check again brings back exactly the state before the Reset. *)
Theorem reset_then_verify_restores (s : State) (reply : Exn + unit) :
  verifiedFrontend s = true ->
  frontendAccepts (pcd s) = true ->
  trace (step (run s [ClickReset]) (ClickVote reply)) = [] /\
  run s [ClickReset; ClickVerify] = s.
Proof.
  intros Hv Hacc. split.
  - rewrite run_cons, vote_step. reflexivity.
  - rewrite !run_cons. unfold run, fold_left, nextState. cbn [pcd].
    rewrite Hacc. destruct s; simpl in *. by subst.
Qed.

(** X7: the Vote action never changes the state of the page, and neither the
    outcome of the request nor an earlier click changes what it does: a
    second click makes the same calls again. *)
Theorem vote_can_be_repeated (s : State) (reply reply' : Exn + unit) :
  store (step s (ClickVote reply)) = s /\
  trace (step (store (step s (ClickVote reply))) (ClickVote reply'))
    = trace (step s (ClickVote reply)).
Proof.
  rewrite vote_store. split; [reflexivity|]. rewrite !vote_step.
  destruct (voteDisabled s); [reflexivity|].
  destruct (votesOf s) as [e|votes]; [reflexivity|].
  destruct (publicKey s) as [pk|]; [|reflexivity].
  by destruct (encryptAll pk votes).
Qed.

Lemma encryptCalls_failure pk votes v e :
  encrypt_call v pk ∈ encryptCalls pk votes -> encrypt v pk = inl e ->
  encryptAll pk votes = inl e.
Proof.
  induction votes as [|w ws IH]; simpl; [by intros ?%elem_of_nil|].
  intros [[= ->]|Hin]%elem_of_cons Hv.
  - by rewrite Hv.
  - destruct (encrypt w pk) as [?|c]; [by apply elem_of_nil in Hin|].
    by rewrite (IH Hin Hv).
Qed.

(** X8: when a call of [encrypt] fails, the Vote action ends with that
    failure and sends no request: a ballot is never sent in part. *)
Theorem failed_encryption_sends_nothing (s : State) (reply : Exn + unit)
    (v : Z) (pk : PublicKey) (e : Exn) :
  encrypt_call v pk ∈ trace (step s (ClickVote reply)) ->
  encrypt v pk = inl e ->
  result (step s (ClickVote reply)) = inl e /\
  forall url method headers body,
    fetch_call url method headers body ∉ trace (step s (ClickVote reply)).
Proof.
  intros Hin Hv. pose proof (vote_encrypt_key _ _ _ _ Hin) as Hpk.
  rewrite vote_step in *. destruct (voteDisabled s); [by apply elem_of_nil in Hin|].
  destruct (votesOf s) as [?|votes]; [by apply elem_of_nil in Hin|].
  rewrite Hpk in *.
  assert (encryptAll pk votes = inl e) as Hall.
  { destruct (encryptAll pk votes) as [?|cs] eqn:Hcs; simpl in Hin.
    - rewrite <- Hcs. by apply (encryptCalls_failure pk votes v).
    - apply elem_of_app in Hin as [Hin|Hin%list_elem_of_singleton];
        [|discriminate].
      rewrite <- Hcs. by apply (encryptCalls_failure pk votes v). }
  rewrite Hall. split; [reflexivity|].
  intros url method headers body (w & Hw & _)%encryptCalls_elem. discriminate.
Qed.

(** X9: with the button enabled, a key loaded, three integral values and
    three successful encryptions, the Vote action calls [encrypt] once per
    project in the order project1, project2, project3 and then posts the one
    request to the vote path; it ends as the request ends and leaves the
    state as it was. Without a credential in store the body has no [pcd]
    field. *)
Theorem vote_success_path (s : State) (reply : Exn + unit) (pk : PublicKey)
    (n1 n2 n3 : number) (v1 v2 v3 : Z) (c1 c2 c3 : Ciphertext) :
  voteDisabled s = false ->
  publicKey s = Some pk ->
  inputValues s !! "project1" = Some n1 -> BigInt n1 = inr v1 ->
  inputValues s !! "project2" = Some n2 -> BigInt n2 = inr v2 ->
  inputValues s !! "project3" = Some n3 -> BigInt n3 = inr v3 ->
  encrypt v1 pk = inr c1 -> encrypt v2 pk = inr c2 -> encrypt v3 pk = inr c3 ->
  let r := step s (ClickVote reply) in
  result r = reply /\ store r = s /\
  trace r =
    [encrypt_call v1 pk; encrypt_call v2 pk; encrypt_call v3 pk;
     fetch_call VOTE_PATH "POST" [("Content-Type", "application/json")]
       (JObj (("votes", JArr [Array_from (serialize c1);
                              Array_from (serialize c2);
                              Array_from (serialize c3)])
                :: match pcd s with
                   | Some p => [("pcd", JStr p)]
                   | None => []
                   end))].
Proof.
  intros Hd Hpk H1 E1 H2 E2 H3 E3 C1 C2 C3 r. subst r.
  rewrite vote_step, Hd. unfold votesOf, BigInt_property.
  rewrite H1, E1, H2, E2, H3, E3, Hpk. simpl. rewrite C1, C2, C3. simpl.
  by rewrite ?C2, ?C3.
Qed.


(** X11: once [verifiedBackend] is set, nothing the user can do on the page
    enables the Vote button again: after any events, Reset included, a click
    on Vote makes no call and returns. *)
Theorem backend_flag_blocks_voting (s : State) (evs : list Event)
    (reply : Exn + unit) :
  verifiedBackend s = true ->
  let r := step (run s evs) (ClickVote reply) in
  result r = inr tt /\ trace r = [].
Proof.
  intros Hb r. subst r. rewrite vote_step. unfold voteDisabled.
  rewrite run_verifiedBackend, Hb, orb_true_r. by split.
Qed.



(** X13: the frontend check gives the user exactly one notification whenever
    it returns: the success message when the credential is accepted, and
    otherwise an error that names the reason (no credential, proof not valid,
    or, for a valid proof only, signer not ETHBerlin), with the state left as
    it was. When deserialization fails the handler fails with that failure,
    shows nothing and changes nothing. *)
Theorem verifyProofFrontend_feedback (s : State) :
  let r := call verifyProofFrontend s in
  match result r with
  | inr _ =>
      (frontendAccepts (pcd s) = true /\
       verifiedFrontend (store r) = true /\
       trace r = [notification_success
                    "Frontend Verified!"
                    (Some (JStr "The proof has been verified by the frontend."))])
      \/
      (frontendAccepts (pcd s) = false /\ store r = s /\
       exists msg, trace r = [notification_error msg] /\
         (truthy (pcd s) = false /\ msg = "No PCD found!" \/
          exists p d, pcd s = Some p /\ deserialize p = inr d /\
            (verify d = false /\
             msg = "[ERROR Frontend] ZK ticket PCD is not valid" \/
             verify d = true /\
             isETHBerlinPublicKey (signer (claim d)) = false /\
             msg = "[ERROR Frontend] PCD is not signed by ETHBerlin")))
  | inl e =>
      trace r = [] /\ store r = s /\
      exists p, pcd s = Some p /\ p <> "" /\ deserialize p = inl e
  end.
Proof.
  unfold call, verifyProofFrontend, frontendAccepts.
  destruct (pcd s) as [p|] eqn:Hp.
  2:{ simpl. right. split_and!; try reflexivity. eexists. split; [reflexivity|].
      by left. }
  destruct (bool_decide (p = "")) eqn:Hne.
  { simpl. right. split_and!; try reflexivity. eexists. split; [reflexivity|].
    left. by rewrite Hne. }
  rewrite bind_run. unfold await.
  destruct (deserialize p) as [e|d] eqn:Hd.
  { simpl. split_and!; try reflexivity. exists p.
    split_and!; try reflexivity; try assumption.
    by apply bool_decide_eq_false in Hne. }
  cbn [mret M_ret result store trace].
  destruct (verify d) eqn:Hv.
  2:{ simpl. right. split_and!; try reflexivity. eexists. split; [reflexivity|].
      right. exists p, d. split_and!; try reflexivity; try assumption. by left. }
  destruct (isETHBerlinPublicKey (signer (claim d))) eqn:Hs.
  2:{ simpl. right. split_and!; try reflexivity. eexists. split; [reflexivity|].
      right. exists p, d. split_and!; try reflexivity; try assumption.
      right. by split_and!. }
  simpl. left. by split_and!.
Qed.

(** X14: [getProof] opens the popup first and touches no cell but [pcd]. It
    stores what [JSON.parse(pcdStr).pcd] gave when the popup returned a pcd
    and parsing succeeded, and leaves [pcd] as it was otherwise; the user is
    told "Failed to parse PCD" exactly when the popup returned a result of
    another type, and the handler fails exactly when the popup or the parsing
    failed. *)
Theorem getProof_outcomes (s : State) (popup : Exn + PopupResult) :
  let r := call (fun s => getProof s popup) s in
  (verifiedFrontend (store r) = verifiedFrontend s /\
   verifiedBackend (store r) = verifiedBackend s /\
   publicKey (store r) = publicKey s /\ inputValues (store r) = inputValues s) /\
  pcd (store r)
    = match popup with
      | inr (PcdResult pcdStr) =>
          match parse_pcd pcdStr with inr p => p | inl _ => pcd s end
      | _ => pcd s
      end /\
  (forall msg, notification_error msg ∈ trace r <->
               msg = "Failed to parse PCD" /\ exists ty, popup = inr (OtherResult ty)) /\
  (forall e, result r = inl e <->
             popup = inl e \/
             exists pcdStr, popup = inr (PcdResult pcdStr) /\
                            parse_pcd pcdStr = inl e).
Proof.
  unfold call, getProof. rewrite bind_run. unfold emit.
  cbn [result store trace].
  destruct popup as [e|[pcdStr|ty]]; unfold_run.
  - split; [done|]. split; [done|]. split.
    + intros msg. split; [by intros [?|?%elem_of_nil]%elem_of_cons|].
      by intros (_ & ? & ?).
    + intros e'. split; [intros [= ->]; by left|].
      intros [[= ->]|(? & ? & _)]; done.
  - destruct (parse_pcd pcdStr) as [e|p] eqn:Hparse; simpl.
    + split; [done|]. split; [done|]. split.
      * intros msg. split; [by intros [?|?%elem_of_nil]%elem_of_cons|].
        by intros (_ & ? & ?).
      * intros e'. split.
        -- intros [= ->]. right. by exists pcdStr.
        -- intros [?|(? & [= <-] & Hq)]; [done|]. congruence.
    + split; [done|]. split; [done|]. split.
      * intros msg. split; [by intros [?|?%elem_of_nil]%elem_of_cons|].
        by intros (_ & ? & ?).
      * intros e'. split; [done|].
        intros [?|(? & [= <-] & Hq)]; [done|]. congruence.
  - split; [done|]. split; [done|]. split.
    + intros msg. split.
      * intros [?|[[= ->]|?%elem_of_nil]%elem_of_cons]%elem_of_cons; try done.
        split; [reflexivity|by exists ty].
      * intros (-> & _). apply elem_of_cons. right. apply elem_of_cons. by left.
    + intros e'. split; [done|]. by intros [?|(? & ? & _)].
Qed.




Lemma votesOf_failure s e :
  votesOf s = inl e ->
  exists project, project ∈ projects /\
                  BigInt_property (inputValues s !! project) = inl e.
Proof.
  unfold votesOf.
  destruct (BigInt_property (inputValues s !! "project1")) as [e1|v1] eqn:H1.
  { intros [= <-]. exists "project1". split; [apply list_elem_of_here|exact H1]. }
  destruct (BigInt_property (inputValues s !! "project2")) as [e2|v2] eqn:H2.
  { intros [= <-]. exists "project2".
    split; [apply list_elem_of_further, list_elem_of_here|exact H2]. }
  destruct (BigInt_property (inputValues s !! "project3")) as [e3|v3] eqn:H3;
    [|discriminate].
  intros [= <-]. exists "project3".
  split; [do 2 apply list_elem_of_further; apply list_elem_of_here|exact H3].
Qed.

(** X17: a Vote action that fails before making any call fails with a
    [RangeError], because one of the three stored values is a number that is
    not integral; it never fails for a missing or undefined value. *)
Theorem early_vote_failure_is_a_RangeError (evs : list Event)
    (reply : Exn + unit) (e : Exn) :
  let s := run initialState evs in
  result (step s (ClickVote reply)) = inl e ->
  trace (step s (ClickVote reply)) = [] ->
  e = RangeError /\
  exists project n, project ∈ projects /\
                    inputValues s !! project = Some n /\
                    BigInt n = inl RangeError.
Proof.
  intros s. rewrite vote_step.
  pose proof (inv_inputs _ (invariant_run initialState evs invariant_init))
    as Hi. fold s in Hi.
  destruct (voteDisabled s); [discriminate|].
  destruct (votesOf s) as [e0|votes] eqn:Hv.
  - intros [= <-] _. pose proof (votesOf_error s e0 Hi Hv) as ->.
    split; [reflexivity|].
    destruct (votesOf_failure s _ Hv) as (project & Hp & Hb).
    destruct (Hi project Hp) as [n Hn]. exists project, n.
    split; [exact Hp|]. split; [exact Hn|]. by rewrite Hn in Hb.
  - destruct (publicKey s) as [pk|]; [|discriminate].
    destruct (encryptAll pk votes) as [e1|cs] eqn:Hcs; simpl.
    + intros _ Hnil. exfalso. destruct votes as [|v vs]; simpl in *;
        discriminate.
    + intros _ Hnil. by apply app_eq_nil in Hnil as [_ ?].
Qed.

End Further.

(** ** The further properties on concrete runs *)

Section FurtherRuns.
Import Demo.


Lemma credential_comes_from_popup_witness :
  exists pcdStr, PopupReturns (inr (PcdResult pcdStr)) ∈ berlin_events /\
                 parse_pcd pcdStr = inr (Some "pcd-berlin").
Proof.
  apply (credential_comes_from_popup berlin_events "pcd-berlin").
  vm_compute. reflexivity.
Defined.

Lemma encryption_key_comes_from_load_witness :
  Mount (inr tt) (inr (Some 7)) ∈ berlin_events.
Proof.
  apply (encryption_key_comes_from_load berlin_events (inr tt) 0 7).
  vm_compute. apply list_elem_of_here.
Defined.

Lemma reset_then_verify_restores_witness :
  trace (step (run (ready "pcd-berlin") [ClickReset]) (ClickVote (inr tt))) = [] /\
  run (ready "pcd-berlin") [ClickReset; ClickVerify] = ready "pcd-berlin".
Proof.
  apply (reset_then_verify_restores (ready "pcd-berlin") (inr tt));
    vm_compute; reflexivity.
Defined.

Lemma failed_encryption_sends_nothing_witness :
  result (@step strict strict_negative (@ClickVote strict (inr tt)))
    = inl (Rejected "EncodingError::OutOfRange") /\
  forall url method headers body,
    @fetch_call strict url method headers body
      ∉ trace (@step strict strict_negative (@ClickVote strict (inr tt))).
Proof.
  apply (@failed_encryption_sends_nothing strict strict_negative (inr tt) (-3) 7).
  - vm_compute. apply list_elem_of_further, list_elem_of_here.
  - vm_compute. reflexivity.
Defined.

Lemma vote_success_path_witness :
  let r := step (ready "pcd-berlin") (ClickVote (inl (Rejected "offline"))) in
  result r = inl (Rejected "offline") /\ store r = ready "pcd-berlin" /\
  trace r = [encrypt_call 0 7; encrypt_call 0 7; encrypt_call 0 7;
             berlin_fetch 7 7 7].
Proof.
  apply (vote_success_path (ready "pcd-berlin") (inl (Rejected "offline")) 7
           (S754_zero false) (S754_zero false) (S754_zero false) 0 0 0 7 7 7);
    vm_compute; reflexivity.
Defined.

Lemma backend_flag_blocks_voting_witness :
  let s := store (call (fun s => sendPCDToServer s (inr (inr JNull)))
                       (ready "pcd-berlin")) in
  result (step (run s [ClickReset; ClickVerify]) (ClickVote (inr tt))) = inr tt /\
  trace (step (run s [ClickReset; ClickVerify]) (ClickVote (inr tt))) = [].
Proof.
  intros s. apply (backend_flag_blocks_voting s [ClickReset; ClickVerify] (inr tt)).
  vm_compute. reflexivity.
Defined.



Lemma early_vote_failure_is_a_RangeError_witness :
  RangeError = RangeError /\
  exists project n,
    project ∈ projects /\
    inputValues (run initialState (berlin_events ++ [Change "project3" "1.5"]))
      !! project = Some n /\
    BigInt n = inl RangeError.
Proof.
  apply (early_vote_failure_is_a_RangeError
           (berlin_events ++ [Change "project3" "1.5"]) (inr tt) RangeError);
    vm_compute; reflexivity.
Defined.

End FurtherRuns.
